(** * sistemas-de-banco: the account / transaction model of [exercício2.py]

    A shallow embedding of the classes [Conta], [ContaCorrente], [Historico],
    [Saque], [Deposito], [Cliente] / [PessoaFisica] and of the menu functions
    that drive them ([depositar], [sacar], [exibir_extrato], [criar_cliente],
    [criar_conta], [listar_contas], [main]), followed by the properties of
    the ledger.

    Conventions of the embedding.
    - Amounts.  The classes only use [<=], [>], [+=] and [-=] on amounts and
      the balance starts as the integer [0].  The main development takes
      amounts in [Z]: Python's unbounded [int], that is, the guards and the
      updates in exact arithmetic.  The docstrings declare amounts as [float]
      and the menu passes [float(input(..))]; the module [Binary64] embeds the
      same account classes over binary64 floats, where [saldo + limite] and
      [saldo -= valor] round and [nan] fails every comparison.  What is
      proved over [Z] and depends on the arithmetic being exact is not
      claimed of floats.
    - Objects.  Every account object is created by [criar_conta], which
      appends it to the list [contas] of [main]; that list is the object
      store, and a reference to an account is its position in the list.  The
      list [cliente.contas] holds such references, so that a transaction made
      through a client is seen through [contas] as well.  A client is referred
      to by its position in [clientes].
    - Effects.  A method takes the receiver and returns its Python return
      value, the receiver after the call and the lines it printed with
      [print]; the prompts of [input] are not lines.  An uncaught exception
      is a last line, after which the program has ended.
    - [datetime.now()] is an input: the formatted time stamp is an argument
      of every operation that records a transaction. *)

From Stdlib Require Import ZArith Lia PrimFloat.
From stdpp Require Import base list strings.

Open Scope Z_scope.

(** ** Data model *)

(** The two concrete subclasses of [Transacao]; [_valor] is set by
    [__init__] and never changed. *)
Inductive Transacao : Type :=
| Saque (v : Z)
| Deposito (v : Z).

(** The property [valor] of both subclasses. *)
Definition valor (t : Transacao) : Z :=
  match t with
  | Saque v => v
  | Deposito v => v
  end.

(** [type(transacao).__name__] *)
Definition type_name (t : Transacao) : string :=
  match t with
  | Saque _ => "Saque"
  | Deposito _ => "Deposito"
  end.

(** The dictionary that [Historico.adicionar_transacao] builds, with its three
    keys ["tipo"], ["valor"] and ["data"]. *)
Record Registro : Type := mkRegistro {
  d_tipo : string;
  d_valor : Z;
  d_data : string
}.

(** What the list [Historico._transacoes] can hold.  [adicionar_transacao]
    only ever appends dictionaries, but the list itself is an ordinary Python
    list, and [ContaCorrente.sacar] tests its elements with [isinstance]. *)
Inductive Objeto : Type :=
| ODict (d : Registro)
| OTransacao (t : Transacao).

(** [isinstance(t, Saque)]: true of an instance of the class [Saque] only; a
    [dict] is not one, whatever it has under ["tipo"]. *)
Definition isinstance_Saque (o : Objeto) : bool :=
  match o with
  | OTransacao (Saque _) => true
  | OTransacao (Deposito _) => false
  | ODict _ => false
  end.

Record Historico : Type := mkHistorico {
  transacoes : list Objeto
}.

(** The class of an account object, with the attributes [ContaCorrente] adds
    ([_limite], [_limite_saques]). *)
Inductive Variante : Type :=
| Base
| Corrente (limite : Z) (limite_saques : Z).

Record Conta : Type := mkConta {
  saldo : Z;
  numero : Z;
  agencia : string;
  cliente : nat;
  historico : Historico;
  variante : Variante
}.

(** The lines the model prints. *)
Inductive Mensagem : Type :=
| MsgValorInvalido        (* Operação falhou! O valor informado é inválido. *)
| MsgSaldoInsuficiente    (* Operação falhou! Você não tem saldo suficiente. *)
| MsgExcedeLimite         (* Operação falhou! O valor do saque excede o limite permitido. *)
| MsgMaximoSaques         (* Operação falhou! Número máximo de saques excedido. *)
| MsgExcedeDisponivel     (* Operação falhou! Valor do saque excede o limite disponível. *)
| MsgSaqueRealizado       (* Saque realizado com sucesso! *)
| MsgDepositoRealizado    (* Depósito realizado com sucesso! *)
| MsgClienteNaoEncontrado (* Cliente não encontrado! *)
| MsgClienteSemConta      (* Cliente não possui conta! *)
| MsgCpfJaExiste          (* Já existe cliente com esse CPF! *)
| MsgClienteCriado        (* Cliente criado com sucesso! *)
| MsgContaNaoCriada       (* Cliente não encontrado, fluxo de criação de conta encerrado! *)
| MsgContaCriada          (* Conta criada com sucesso! *)
| MsgOperacaoInvalida     (* Operação inválida, por favor selecione novamente ... *)
| MsgExtratoCabecalho     (* ================ EXTRATO ================ *)
| MsgSemMovimentacoes     (* Não foram realizadas movimentações. *)
| MsgMovimentacao (tipo : string) (v : Z)   (* {tipo}: R$ {valor:.2f} *)
| MsgSaldo (s : Z)        (* Saldo: R$ {saldo:.2f} *)
| MsgExtratoRodape        (* ========================================== *)
| MsgSeparador            (* "=" * 100 *)
| MsgConta (ag : string) (n : Z) (titular : option string)
                          (* Agência: {agencia}  C/C: {numero}  Titular: {nome} *)
| MsgObjeto               (* the default [str] of an object without [__str__] *)
| MsgExcecao.             (* the traceback of an uncaught exception *)

(** Result of a method call on an account. *)
Record Res (A : Type) : Type := mkRes {
  ret : A;
  apos : Conta;
  impresso : list Mensagem
}.
Arguments mkRes {A} _ _ _.
Arguments ret {A} _.
Arguments apos {A} _.
Arguments impresso {A} _.

(** ** Historico *)

Definition Historico_init : Historico := mkHistorico [].

Definition Historico_adicionar_transacao
    (t : Transacao) (agora : string) (h : Historico) : Historico :=
  mkHistorico
    (transacoes h ++ [ODict (mkRegistro (type_name t) (valor t) agora)]).

(** ** Conta *)

Definition Conta_init (n : Z) (cli : nat) : Conta :=
  mkConta 0 n "0001" cli Historico_init Base.

Definition limite_padrao : Z := 500.
Definition limite_saques_padrao : Z := 3.

Definition ContaCorrente_init (n : Z) (cli : nat) (lim lim_saques : Z) : Conta :=
  mkConta 0 n "0001" cli Historico_init (Corrente lim lim_saques).

(** [nova_conta] is a class method: [cls(numero, cliente)]; on
    [ContaCorrente] the two limits take their defaults. *)
Definition Conta_nova_conta (cli : nat) (n : Z) : Conta :=
  Conta_init n cli.

Definition ContaCorrente_nova_conta (cli : nat) (n : Z) : Conta :=
  ContaCorrente_init n cli limite_padrao limite_saques_padrao.

Definition set_saldo (s : Z) (c : Conta) : Conta :=
  mkConta s (numero c) (agencia c) (cliente c) (historico c) (variante c).

Definition set_historico (h : Historico) (c : Conta) : Conta :=
  mkConta (saldo c) (numero c) (agencia c) (cliente c) h (variante c).

Definition Conta_sacar (v : Z) (c : Conta) : Res bool :=
  if v <=? 0 then mkRes false c [MsgValorInvalido]
  else if v >? saldo c then mkRes false c [MsgSaldoInsuficiente]
  else mkRes true (set_saldo (saldo c - v) c) [MsgSaqueRealizado].

Definition Conta_depositar (v : Z) (c : Conta) : Res bool :=
  if v <=? 0 then mkRes false c [MsgValorInvalido]
  else mkRes true (set_saldo (saldo c + v) c) [MsgDepositoRealizado].

(** ** ContaCorrente *)

(** [len([t for t in self.historico.transacoes if isinstance(t, Saque)])] *)
Definition numero_saques (c : Conta) : nat :=
  length (filter (λ o, isinstance_Saque o = true) (transacoes (historico c))).

Definition ContaCorrente_sacar (lim lim_saques : Z) (v : Z) (c : Conta) : Res bool :=
  if v <=? 0 then mkRes false c [MsgValorInvalido]
  else if v >? lim then mkRes false c [MsgExcedeLimite]
  else if Z.of_nat (numero_saques c) >=? lim_saques then mkRes false c [MsgMaximoSaques]
  else if v >? saldo c + lim then mkRes false c [MsgExcedeDisponivel]
  else mkRes true (set_saldo (saldo c - v) c) [MsgSaqueRealizado].

(** Method resolution of [conta.sacar]: [ContaCorrente] overrides it. *)
Definition sacar_de (v : Z) (c : Conta) : Res bool :=
  match variante c with
  | Base => Conta_sacar v c
  | Corrente lim lim_saques => ContaCorrente_sacar lim lim_saques v c
  end.

(** [conta.depositar] is inherited by [ContaCorrente] unchanged. *)
Definition depositar_em (v : Z) (c : Conta) : Res bool :=
  Conta_depositar v c.

(** ** Saque, Deposito *)

Definition Saque_registrar (v : Z) (agora : string) (c : Conta) : Res unit :=
  let r := sacar_de v c in
  if ret r
  then mkRes tt
         (set_historico
            (Historico_adicionar_transacao (Saque v) agora (historico (apos r)))
            (apos r))
         (impresso r)
  else mkRes tt (apos r) (impresso r).

Definition Deposito_registrar (v : Z) (agora : string) (c : Conta) : Res unit :=
  mkRes tt
    (set_historico
       (Historico_adicionar_transacao (Deposito v) agora (historico c)) c)
    [].

(** [transacao.registrar(conta)] *)
Definition registrar (t : Transacao) (agora : string) (c : Conta) : Res unit :=
  match t with
  | Saque v => Saque_registrar v agora c
  | Deposito v => Deposito_registrar v agora c
  end.

(** [Cliente.realizar_transacao] only forwards. *)
Definition Cliente_realizar_transacao
    (c : Conta) (t : Transacao) (agora : string) : Res unit :=
  registrar t agora c.

(** ** Cliente, PessoaFisica *)

Record PessoaFisica : Type := mkPessoaFisica {
  endereco : string;
  contas_do_cliente : list nat;   (* [Cliente.contas]: references into the store *)
  nome : string;
  data_nascimento : string;
  cpf : string
}.

Definition PessoaFisica_init (n d x e : string) : PessoaFisica :=
  mkPessoaFisica e [] n d x.

Definition Cliente_adicionar_conta (k : nat) (p : PessoaFisica) : PessoaFisica :=
  mkPessoaFisica (endereco p) (contas_do_cliente p ++ [k])
    (nome p) (data_nascimento p) (cpf p).

(** ** The menu functions *)

(** The two lists of [main]. *)
Record Banco : Type := mkBanco {
  clientes : list PessoaFisica;
  contas : list Conta
}.

(** First client with the given CPF, with its position (the reference the
    Python function returns), or [None]. *)
Definition filtrar_cliente (x : string) (cs : list PessoaFisica)
    : option (nat * PessoaFisica) :=
  list_find (λ p, cpf p = x) cs.

(** [cliente.contas[0]], or [None] (and a message) for a client without one. *)
Definition recuperar_conta_cliente (p : PessoaFisica) : option nat * list Mensagem :=
  match contas_do_cliente p with
  | [] => (None, [MsgClienteSemConta])
  | k :: _ => (Some k, [])
  end.

(** Common part of [depositar] and [sacar]: find the client, build the
    transaction, take the client's first account and let the client realise
    the transaction on it.  A reference that is not in the store does not
    arise (see [main_referencias]); the state is then left as it is. *)
Definition transacionar (x : string) (t : Transacao) (agora : string) (b : Banco)
    : Banco * list Mensagem :=
  match filtrar_cliente x (clientes b) with
  | None => (b, [MsgClienteNaoEncontrado])
  | Some (_, p) =>
      match recuperar_conta_cliente p with
      | (None, out) => (b, out)
      | (Some k, out) =>
          match contas b !! k with
          | None => (b, out)
          | Some c =>
              let r := Cliente_realizar_transacao c t agora in
              (mkBanco (clientes b) (<[k := apos r]> (contas b)),
               out ++ impresso r)
          end
      end
  end.

Definition depositar (x : string) (v : Z) (agora : string) (b : Banco)
    : Banco * list Mensagem :=
  transacionar x (Deposito v) agora b.

Definition sacar (x : string) (v : Z) (agora : string) (b : Banco)
    : Banco * list Mensagem :=
  transacionar x (Saque v) agora b.

Definition criar_cliente (x n d e : string) (b : Banco) : Banco * list Mensagem :=
  match filtrar_cliente x (clientes b) with
  | Some _ => (b, [MsgCpfJaExiste])
  | None =>
      (mkBanco (clientes b ++ [PessoaFisica_init n d x e]) (contas b),
       [MsgClienteCriado])
  end.

Definition criar_conta (numero_conta : Z) (x : string) (b : Banco)
    : Banco * list Mensagem :=
  match filtrar_cliente x (clientes b) with
  | None => (b, [MsgContaNaoCriada])
  | Some (i, p) =>
      let conta := ContaCorrente_nova_conta i numero_conta in
      let k := length (contas b) in
      (mkBanco (<[i := Cliente_adicionar_conta k p]> (clientes b))
               (contas b ++ [conta]),
       [MsgContaCriada])
  end.

(** The [for] of [exibir_extrato]: one line per entry of the history.  An
    entry is subscripted, [transacao['tipo']], which a dictionary allows; on
    an instance of [Saque] or [Deposito] it raises [TypeError], and nothing
    more is printed. *)
Fixpoint linhas_do_extrato (l : list Objeto) : list Mensagem :=
  match l with
  | [] => []
  | ODict d :: resto => MsgMovimentacao (d_tipo d) (d_valor d) :: linhas_do_extrato resto
  | OTransacao _ :: _ => [MsgExcecao]
  end.

(** An uncaught exception among the lines. *)
Definition excecao (m : Mensagem) : bool :=
  match m with
  | MsgExcecao => true
  | _ => false
  end.

(** [exibir_extrato] reads the two lists and prints; the rendering of the
    amounts with two decimals is left to the lines. *)
Definition exibir_extrato (x : string) (b : Banco) : list Mensagem :=
  match filtrar_cliente x (clientes b) with
  | None => [MsgClienteNaoEncontrado]
  | Some (_, p) =>
      match recuperar_conta_cliente p with
      | (None, out) => out
      | (Some k, out) =>
          match contas b !! k with
          | None => out
          | Some c =>
              let movs :=
                match transacoes (historico c) with
                | [] => [MsgSemMovimentacoes]
                | l => linhas_do_extrato l
                end in
              if existsb excecao movs
              then out ++ MsgExtratoCabecalho :: movs
              else out ++ MsgExtratoCabecalho :: movs
                       ++ [MsgSaldo (saldo c); MsgExtratoRodape]
          end
      end
  end.

(** [str(conta)]: [ContaCorrente.__str__] reads [self.cliente.nome]; the class
    [Conta] defines no [__str__]. *)
Definition str_conta (b : Banco) (c : Conta) : Mensagem :=
  match variante c with
  | Base => MsgObjeto
  | Corrente _ _ =>
      MsgConta (agencia c) (numero c) (nome <$> clientes b !! cliente c)
  end.

Definition listar_contas (b : Banco) : list Mensagem :=
  contas b ≫= (λ c, [MsgSeparador; str_conta b c]).

(** One choice of the menu together with the lines typed after it; the
    amount typed is the integer amount of the main development. *)
Inductive Comando : Type :=
| Cmd_d (x : string) (v : Z) (agora : string)
| Cmd_s (x : string) (v : Z) (agora : string)
| Cmd_e (x : string)
| Cmd_nu (x n d e : string)
| Cmd_nc (x : string)
| Cmd_lc
| Cmd_x
| Cmd_outro.

(** The body of the [while True] of [main] for every choice but ["x"]. *)
Definition passo (cmd : Comando) (b : Banco) : Banco * list Mensagem :=
  match cmd with
  | Cmd_d x v agora => depositar x v agora b
  | Cmd_s x v agora => sacar x v agora b
  | Cmd_e x => (b, exibir_extrato x b)
  | Cmd_nu x n d e => criar_cliente x n d e b
  | Cmd_nc x =>
      let numero_conta := Z.of_nat (length (contas b)) + 1 in
      criar_conta numero_conta x b
  | Cmd_lc => (b, listar_contas b)
  | Cmd_x => (b, [])
  | Cmd_outro => (b, [MsgOperacaoInvalida])
  end.

(** The loop of [main] on the choices typed so far; ["x"] leaves the loop,
    and so does an exception, which nothing catches. *)
Fixpoint laco (cmds : list Comando) (b : Banco) : Banco * list Mensagem :=
  match cmds with
  | [] => (b, [])
  | Cmd_x :: _ => (b, [])
  | cmd :: resto =>
      let (b1, out1) := passo cmd b in
      if existsb excecao out1 then (b1, out1)
      else
        let (b2, out2) := laco resto b1 in
        (b2, out1 ++ out2)
  end.

Definition banco_inicial : Banco := mkBanco [] [].

Definition main (cmds : list Comando) : Banco * list Mensagem :=
  laco cmds banco_inicial.

(** ** Sequences of operations on one account *)

(** The operations that touch a balance: the two methods of the account and
    the two transactions that go through [registrar]. *)
Inductive Operacao : Type :=
| OpSacar (v : Z)
| OpDepositar (v : Z)
| OpTransacao (t : Transacao) (agora : string).

Definition aplicar (c : Conta) (op : Operacao) : Conta :=
  match op with
  | OpSacar v => apos (sacar_de v c)
  | OpDepositar v => apos (depositar_em v c)
  | OpTransacao t agora => apos (registrar t agora c)
  end.

Definition executar (ops : list Operacao) (c : Conta) : Conta :=
  fold_left aplicar ops c.

(** The floor of the balance: zero, or minus the overdraft limit. *)
Definition piso (c : Conta) : Z :=
  match variante c with
  | Base => 0
  | Corrente lim _ => - lim
  end.

(** A dictionary of the history recorded under the kind [k]. *)
Definition do_tipo (k : string) (o : Objeto) : bool :=
  match o with
  | ODict d => bool_decide (d_tipo d = k)
  | OTransacao _ => false
  end.

Definition valor_registrado (o : Objeto) : Z :=
  match o with
  | ODict d => d_valor d
  | OTransacao t => valor t
  end.

(** Sum of the amounts recorded in a history under a given kind. *)
Definition soma_do_tipo (k : string) (h : Historico) : Z :=
  foldr Z.add 0
    (valor_registrado <$> filter (λ o, do_tipo k o = true) (transacoes h)).

(** Number of entries of a history recorded under a given kind. *)
Definition conta_do_tipo (k : string) (h : Historico) : nat :=
  length (filter (λ o, do_tipo k o = true) (transacoes h)).

(** A line that reports a refusal ("Operação falhou!"). *)
Definition falhou (m : Mensagem) : bool :=
  match m with
  | MsgValorInvalido | MsgSaldoInsuficiente | MsgExcedeLimite
  | MsgMaximoSaques | MsgExcedeDisponivel => true
  | _ => false
  end.

Definition rejeitada {A : Type} (r : Res A) : bool :=
  existsb falhou (impresso r).

(** ** Invariants of the two lists *)

(** A history that holds dictionaries only, as every history grown by
    [adicionar_transacao] from the empty one does. *)
Definition so_dicts (h : Historico) : Prop :=
  Forall (λ o, ∃ d, o = ODict d) (transacoes h).

(** How one turn of the menu changes the store of accounts: not at all, by a
    transaction on one stored account, or by a new account at the end. *)
Inductive evolui : list Conta → list Conta → Prop :=
| evolui_nada l :
    evolui l l
| evolui_transacao l k c t agora :
    l !! k = Some c →
    evolui l (<[k := apos (registrar t agora c)]> l)
| evolui_nova l i :
    evolui l (l ++ [ContaCorrente_nova_conta i (Z.of_nat (length l) + 1)]).

(** Every reference a client holds is to a stored account, so the branch of
    [transacionar] for a missing account is never taken from [main]. *)
Definition referencias_validas (b : Banco) : Prop :=
  ∀ p k, p ∈ clientes b → k ∈ contas_do_cliente p →
         (k < length (contas b))%nat.

(** The numbers of the stored accounts are 1, 2, 3, ... in order. *)
Definition em_sequencia (l : list Conta) : Prop :=
  numero <$> l = (λ k : nat, Z.of_nat k + 1) <$> seq 0 (length l).

(** ** The account classes over binary64 floats *)

(** The classes [Saque], [Deposito], [Historico], [Conta] and [ContaCorrente]
    once more, line by line as above, with the amounts, the balance and the
    limit as the [float] the docstrings declare.  The integers [0] and [500]
    of the source are the floats of the same value, with which they compare
    and add alike.  [<=] and [>] are the IEEE comparisons, false on [nan];
    [+=] and [-=] round to nearest. *)
Module Binary64.

Inductive Transacao : Type :=
| Saque (v : float)
| Deposito (v : float).

Definition valor (t : Transacao) : float :=
  match t with
  | Saque v => v
  | Deposito v => v
  end.

Definition type_name (t : Transacao) : string :=
  match t with
  | Saque _ => "Saque"
  | Deposito _ => "Deposito"
  end.

Record Registro : Type := mkRegistro {
  d_tipo : string;
  d_valor : float;
  d_data : string
}.

Inductive Objeto : Type :=
| ODict (d : Registro)
| OTransacao (t : Transacao).

Definition isinstance_Saque (o : Objeto) : bool :=
  match o with
  | OTransacao (Saque _) => true
  | OTransacao (Deposito _) => false
  | ODict _ => false
  end.

Record Historico : Type := mkHistorico {
  transacoes : list Objeto
}.

Inductive Variante : Type :=
| Base
| Corrente (limite : float) (limite_saques : Z).

Record Conta : Type := mkConta {
  saldo : float;
  numero : Z;
  agencia : string;
  cliente : nat;
  historico : Historico;
  variante : Variante
}.

Record Res (A : Type) : Type := mkRes {
  ret : A;
  apos : Conta;
  impresso : list Mensagem
}.
Arguments mkRes {A} _ _ _.
Arguments ret {A} _.
Arguments apos {A} _.
Arguments impresso {A} _.

Definition Historico_init : Historico := mkHistorico [].

Definition Historico_adicionar_transacao
    (t : Transacao) (agora : string) (h : Historico) : Historico :=
  mkHistorico
    (transacoes h ++ [ODict (mkRegistro (type_name t) (valor t) agora)]).

Definition Conta_init (n : Z) (cli : nat) : Conta :=
  mkConta 0%float n "0001" cli Historico_init Base.

Definition ContaCorrente_init (n : Z) (cli : nat) (lim : float) (lim_saques : Z)
    : Conta :=
  mkConta 0%float n "0001" cli Historico_init (Corrente lim lim_saques).

Definition ContaCorrente_nova_conta (cli : nat) (n : Z) : Conta :=
  ContaCorrente_init n cli 500%float 3.

Definition set_saldo (s : float) (c : Conta) : Conta :=
  mkConta s (numero c) (agencia c) (cliente c) (historico c) (variante c).

Definition set_historico (h : Historico) (c : Conta) : Conta :=
  mkConta (saldo c) (numero c) (agencia c) (cliente c) h (variante c).

Definition Conta_sacar (v : float) (c : Conta) : Res bool :=
  if PrimFloat.leb v 0 then mkRes false c [MsgValorInvalido]
  else if PrimFloat.ltb (saldo c) v then mkRes false c [MsgSaldoInsuficiente]
  else mkRes true (set_saldo (PrimFloat.sub (saldo c) v) c) [MsgSaqueRealizado].

Definition Conta_depositar (v : float) (c : Conta) : Res bool :=
  if PrimFloat.leb v 0 then mkRes false c [MsgValorInvalido]
  else mkRes true (set_saldo (PrimFloat.add (saldo c) v) c) [MsgDepositoRealizado].

Definition numero_saques (c : Conta) : nat :=
  length (filter (λ o, isinstance_Saque o = true) (transacoes (historico c))).

Definition ContaCorrente_sacar (lim : float) (lim_saques : Z) (v : float)
    (c : Conta) : Res bool :=
  if PrimFloat.leb v 0 then mkRes false c [MsgValorInvalido]
  else if PrimFloat.ltb lim v then mkRes false c [MsgExcedeLimite]
  else if Z.of_nat (numero_saques c) >=? lim_saques
       then mkRes false c [MsgMaximoSaques]
  else if PrimFloat.ltb (PrimFloat.add (saldo c) lim) v
       then mkRes false c [MsgExcedeDisponivel]
  else mkRes true (set_saldo (PrimFloat.sub (saldo c) v) c) [MsgSaqueRealizado].

Definition sacar_de (v : float) (c : Conta) : Res bool :=
  match variante c with
  | Base => Conta_sacar v c
  | Corrente lim lim_saques => ContaCorrente_sacar lim lim_saques v c
  end.

Definition Saque_registrar (v : float) (agora : string) (c : Conta) : Res unit :=
  let r := sacar_de v c in
  if ret r
  then mkRes tt
         (set_historico
            (Historico_adicionar_transacao (Saque v) agora (historico (apos r)))
            (apos r))
         (impresso r)
  else mkRes tt (apos r) (impresso r).

Definition Deposito_registrar (v : float) (agora : string) (c : Conta)
    : Res unit :=
  mkRes tt
    (set_historico
       (Historico_adicionar_transacao (Deposito v) agora (historico c)) c)
    [].

Definition registrar (t : Transacao) (agora : string) (c : Conta) : Res unit :=
  match t with
  | Saque v => Saque_registrar v agora c
  | Deposito v => Deposito_registrar v agora c
  end.

(** The floor of the balance: zero, or minus the overdraft limit. *)
Definition piso (c : Conta) : float :=
  match variante c with
  | Base => 0%float
  | Corrente lim _ => PrimFloat.opp lim
  end.

End Binary64.

(** ** Notions for the properties of the menu *)

(** The account the menu acts on for a CPF: the first account of the first
    client registered under it. *)
Definition conta_do_menu (x : string) (b : Banco) : option nat :=
  match filtrar_cliente x (clientes b) with
  | Some (_, p) => head (contas_do_cliente p)
  | None => None
  end.

(** The two directions of ownership agree: an account a client lists is
    stored and names that client, and a stored account is listed by the client
    it names. *)
Definition posse_consistente (b : Banco) : Prop :=
  (∀ i p k, clientes b !! i = Some p → k ∈ contas_do_cliente p →
            ∃ c, contas b !! k = Some c ∧ cliente c = i)
  ∧ (∀ k c, contas b !! k = Some c →
            ∃ p, clientes b !! cliente c = Some p ∧ k ∈ contas_do_cliente p).

(** The account [k] is the first one of some client. *)
Definition primeira_de (b : Banco) (k : nat) : Prop :=
  ∃ i p, clientes b !! i = Some p ∧ head (contas_do_cliente p) = Some k.

(** Every stored account that is not the first one of a client is as it was
    created. *)
Definition so_primeiras_mudam (b : Banco) : Prop :=
  ∀ k c, contas b !! k = Some c →
         primeira_de b k ∨ (saldo c = 0 ∧ transacoes (historico c) = []).

(** The dictionary an operation would record, if it is a transaction. *)
Definition entrada_de (op : Operacao) : list Objeto :=
  match op with
  | OpTransacao t agora => [ODict (mkRegistro (type_name t) (valor t) agora)]
  | OpSacar _ => []
  | OpDepositar _ => []
  end.

(** A line that [main] never prints. *)
Definition nunca_impressa (m : Mensagem) : bool :=
  match m with
  | MsgMaximoSaques | MsgSaldoInsuficiente | MsgDepositoRealizado => true
  | _ => false
  end.

(** How one turn of the menu changes the two lists: not at all, by a
    transaction on the first account of a client, by a new client without
    accounts under a CPF not yet used, or by a new account for a registered
    client. *)
Inductive transicao : Banco → Banco → Prop :=
| transicao_nada b :
    transicao b b
| transicao_transacao b k c t agora :
    contas b !! k = Some c →
    primeira_de b k →
    transicao b
      (mkBanco (clientes b) (<[k := apos (registrar t agora c)]> (contas b)))
| transicao_cliente b p :
    contas_do_cliente p = [] →
    cpf p ∉ cpf <$> clientes b →
    transicao b (mkBanco (clientes b ++ [p]) (contas b))
| transicao_conta b i p :
    clientes b !! i = Some p →
    transicao b
      (mkBanco
         (<[i := Cliente_adicionar_conta (length (contas b)) p]> (clientes b))
         (contas b ++ [ContaCorrente_nova_conta i
                         (Z.of_nat (length (contas b)) + 1)])).

(** What stays of a stored account: its place, number, branch, owner, class
    and limits, and what its history already holds. *)
Definition mesma_conta (c c' : Conta) : Prop :=
  numero c' = numero c ∧ agencia c' = agencia c ∧ cliente c' = cliente c
  ∧ variante c' = variante c
  ∧ transacoes (historico c) `prefix_of` transacoes (historico c').

(** What stays of a registered client: its place, its personal data, and the
    accounts it already lists, in their order. *)
Definition mesmo_cliente (p p' : PessoaFisica) : Prop :=
  cpf p' = cpf p ∧ nome p' = nome p ∧ data_nascimento p' = data_nascimento p
  ∧ endereco p' = endereco p
  ∧ contas_do_cliente p `prefix_of` contas_do_cliente p'.

(** * Properties *)

(** Case analysis on the comparisons of a guard. *)
Ltac casos_Z :=
  repeat match goal with
    | |- context [?a >? ?b] => rewrite (Z.gtb_ltb a b)
    | |- context [?a >=? ?b] => rewrite (Z.geb_leb a b)
    | |- context [?a <=? ?b] => destruct (Z.leb_spec a b)
    | |- context [?a <? ?b] => destruct (Z.ltb_spec a b)
    end.

(** ** Historico *)

Section Historico_props.

Implicit Types (h : Historico) (t : Transacao) (agora k : string).

Lemma adicionar_transacao_length t agora h :
  length (transacoes (Historico_adicionar_transacao t agora h))
  = S (length (transacoes h)).
Proof. simpl. rewrite length_app. simpl. lia. Qed.

Lemma soma_do_tipo_adicionar k t agora h :
  soma_do_tipo k (Historico_adicionar_transacao t agora h)
  = soma_do_tipo k h + (if bool_decide (type_name t = k) then valor t else 0).
Proof.
  unfold soma_do_tipo. simpl. rewrite filter_app, fmap_app, foldr_app.
  rewrite filter_cons, filter_nil. simpl.
  assert (Hsum : ∀ (l : list Z) a, foldr Z.add a l = foldr Z.add 0 l + a).
  { induction l as [|z l IH]; intros a; simpl; [lia|]. rewrite IH. lia. }
  destruct (bool_decide (type_name t = k)) eqn:E.
  - rewrite decide_True by done. simpl. rewrite Hsum. lia.
  - rewrite decide_False by done. simpl. lia.
Qed.

Lemma conta_do_tipo_adicionar k t agora h :
  conta_do_tipo k (Historico_adicionar_transacao t agora h)
  = (conta_do_tipo k h + (if bool_decide (type_name t = k) then 1 else 0))%nat.
Proof.
  unfold conta_do_tipo. simpl. rewrite filter_app, length_app.
  rewrite filter_cons, filter_nil. simpl.
  destruct (bool_decide (type_name t = k)) eqn:E.
  - rewrite decide_True by done. reflexivity.
  - rewrite decide_False by done. reflexivity.
Qed.

Lemma so_dicts_init : so_dicts Historico_init.
Proof. constructor. Qed.

Lemma so_dicts_adicionar t agora h :
  so_dicts h → so_dicts (Historico_adicionar_transacao t agora h).
Proof.
  unfold so_dicts. simpl. intros H. apply Forall_app. split; [done|].
  repeat constructor. eauto.
Qed.

End Historico_props.

(** ** The methods of an account *)

Section Conta_props.

Implicit Types (c : Conta) (v lim ls : Z) (agora : string).

(** In a history of dictionaries [isinstance(t, Saque)] selects nothing. *)
Lemma numero_saques_so_dicts c :
  so_dicts (historico c) → numero_saques c = 0%nat.
Proof.
  unfold numero_saques, so_dicts. induction 1 as [|o l [d ->] _ IH]; [done|].
  rewrite filter_cons_False by (simpl; done). exact IH.
Qed.

(** [Conta.depositar], the method no transaction calls: it refuses an amount
    that is not positive and credits a positive one. *)
Lemma Conta_depositar_nao_positivo v c :
  v <= 0 → Conta_depositar v c = mkRes false c [MsgValorInvalido].
Proof. intros Hv. unfold Conta_depositar. casos_Z; [done|lia]. Qed.

Lemma Conta_depositar_positivo v c :
  0 < v →
  Conta_depositar v c = mkRes true (set_saldo (saldo c + v) c) [MsgDepositoRealizado].
Proof. intros Hv. unfold Conta_depositar. casos_Z; [lia|done]. Qed.

(** A withdrawal either leaves the account as it is and returns [False], or
    debits the amount and returns [True]. *)
Lemma sacar_de_casos v c :
  (ret (sacar_de v c) = false ∧ apos (sacar_de v c) = c
     ∧ ∃ m, impresso (sacar_de v c) = [m] ∧ falhou m = true)
  ∨ (ret (sacar_de v c) = true ∧ apos (sacar_de v c) = set_saldo (saldo c - v) c
     ∧ impresso (sacar_de v c) = [MsgSaqueRealizado]
     ∧ 0 < v ∧ piso c <= saldo c - v).
Proof.
  unfold sacar_de, piso. destruct (variante c) as [|lim ls].
  - unfold Conta_sacar. casos_Z; simpl;
      first [ left; split; [done|]; split; [done|]; eexists; split; done
            | right; repeat split; lia ].
  - unfold ContaCorrente_sacar. casos_Z; simpl;
      first [ left; split; [done|]; split; [done|]; eexists; split; done
            | right; repeat split; lia ].
Qed.

(** No operation changes the class, the limits or the number of an
    account. *)
Lemma aplicar_identidade c op :
  variante (aplicar c op) = variante c ∧ numero (aplicar c op) = numero c
  ∧ cliente (aplicar c op) = cliente c ∧ agencia (aplicar c op) = agencia c.
Proof.
  destruct op as [v|v|[v|v] agora]; simpl.
  - destruct (sacar_de_casos v c) as [(_ & -> & _)|(_ & -> & _)]; done.
  - unfold depositar_em, Conta_depositar. casos_Z; done.
  - unfold Saque_registrar.
    destruct (sacar_de_casos v c) as [(-> & -> & _)|(-> & -> & _)]; done.
  - done.
Qed.

(** One operation keeps the balance at or above the floor. *)
Lemma aplicar_piso c op :
  piso c <= saldo c → piso (aplicar c op) <= saldo (aplicar c op).
Proof.
  intros H.
  assert (Hp : piso (aplicar c op) = piso c).
  { unfold piso. by destruct (aplicar_identidade c op) as [-> _]. }
  rewrite Hp. destruct op as [v|v|[v|v] agora]; simpl.
  - destruct (sacar_de_casos v c) as [(_ & -> & _)|(_ & -> & _ & _ & ?)];
      simpl; lia.
  - unfold depositar_em, Conta_depositar. casos_Z; simpl; lia.
  - unfold Saque_registrar.
    destruct (sacar_de_casos v c) as [(-> & -> & _)|(-> & -> & _ & _ & ?)];
      simpl; lia.
  - lia.
Qed.

(** What a transaction does to the balance and to the sum of the recorded
    withdrawals: the two move together, and a deposit moves neither. *)
Lemma registrar_saldo_e_saques t agora c :
  let c' := apos (registrar t agora c) in
  saldo c' + soma_do_tipo "Saque" (historico c')
  = saldo c + soma_do_tipo "Saque" (historico c).
Proof.
  destruct t as [v|v]; simpl.
  - unfold Saque_registrar.
    destruct (sacar_de_casos v c) as [(-> & -> & _)|(-> & -> & _)]; [done|].
    simpl historico. rewrite soma_do_tipo_adicionar. simpl. lia.
  - rewrite soma_do_tipo_adicionar. simpl. lia.
Qed.

(** A transaction keeps a history of dictionaries one. *)
Lemma registrar_so_dicts t agora c :
  so_dicts (historico c) → so_dicts (historico (apos (registrar t agora c))).
Proof.
  intros H. destruct t as [v|v]; simpl.
  - unfold Saque_registrar.
    destruct (sacar_de_casos v c) as [(-> & -> & _)|(-> & -> & _)]; [done|].
    simpl. by apply so_dicts_adicionar.
  - by apply so_dicts_adicionar.
Qed.

End Conta_props.

(** ** Deposits *)

(** C1.  What [Deposito.registrar] does for every amount, positive ones
    included: it appends one entry to the history and leaves the balance as it
    was, because it never calls [Conta.depositar].  The balance is therefore
    not increased by the amount. *)
Theorem Deposito_registrar_nao_credita :
  ∀ (c : Conta) (v : Z) (agora : string),
    let r := registrar (Deposito v) agora c in
    saldo (apos r) = saldo c
    ∧ length (transacoes (historico (apos r)))
      = S (length (transacoes (historico c)))
    ∧ impresso r = []
    ∧ saldo (apos (depositar_em v c)) = (if v <=? 0 then saldo c else saldo c + v).
Proof.
  intros c v agora r. subst r. simpl. repeat split.
  - rewrite length_app. simpl. lia.
  - unfold depositar_em, Conta_depositar. casos_Z; reflexivity.
Qed.

(** C4.  A deposit of an amount that is not positive is recorded like any
    other: [Deposito.registrar] appends its dictionary to the history, here
    for the amount -50 on a new account, and in general for every amount. *)
Theorem Deposito_registrar_sempre_anota :
  transacoes (historico
    (apos (registrar (Deposito (-50)) "03-11-2026 10:00" (Conta_nova_conta 0 1))))
  = [ODict (mkRegistro "Deposito" (-50) "03-11-2026 10:00")]
  ∧ ∀ (c : Conta) (v : Z) (agora : string),
      transacoes (historico (apos (registrar (Deposito v) agora c)))
      = transacoes (historico c) ++ [ODict (mkRegistro "Deposito" v agora)].
Proof. split; reflexivity. Qed.

(** ** Withdrawals *)

(** C7.  A withdrawal transaction is either refused, and then the account is
    left exactly as it was (balance and history included), or it is accepted,
    and then the balance is debited and exactly one entry is appended to the
    history.  The two cases exclude each other. *)
Theorem Saque_registrar_rejeita_ou_anota :
  ∀ (c : Conta) (v : Z) (agora : string),
    let r := registrar (Saque v) agora c in
    (rejeitada r = true ∧ ret (sacar_de v c) = false ∧ apos r = c)
    ∨ (rejeitada r = false ∧ ret (sacar_de v c) = true
       ∧ saldo (apos r) = saldo c - v
       ∧ transacoes (historico (apos r))
         = transacoes (historico c) ++ [ODict (mkRegistro "Saque" v agora)]).
Proof.
  intros c v agora r. subst r. simpl. unfold Saque_registrar, rejeitada.
  destruct (sacar_de_casos v c) as [(E1 & E2 & m & E3 & Hm)|(E1 & E2 & E3 & _)];
    rewrite E1, E2; simpl; rewrite E3; simpl.
  - left. rewrite Hm. done.
  - right. done.
Qed.

(** C6.  On a checking account a withdrawal above the configured limit is
    refused and changes nothing, whatever the balance and the history are; for
    a positive amount the refusal is the one of the limit, so this guard comes
    before the count of withdrawals and the available funds. *)
Theorem ContaCorrente_sacar_acima_do_limite :
  ∀ (c : Conta) (lim ls v : Z),
    variante c = Corrente lim ls →
    lim < v →
    ret (sacar_de v c) = false
    ∧ apos (sacar_de v c) = c
    ∧ impresso (sacar_de v c)
      = [if v <=? 0 then MsgValorInvalido else MsgExcedeLimite].
Proof.
  intros c lim ls v Hc Hv. unfold sacar_de. rewrite Hc.
  unfold ContaCorrente_sacar. casos_Z; try done; lia.
Qed.

(** 600 from a checking account with limit 500 and balance 10,000. *)
Lemma ContaCorrente_sacar_acima_do_limite_witness :
  let c := set_saldo 10000 (ContaCorrente_nova_conta 0 1) in
  ret (sacar_de 600 c) = false
  ∧ apos (sacar_de 600 c) = c
  ∧ impresso (sacar_de 600 c) = [MsgExcedeLimite].
Proof.
  exact (ContaCorrente_sacar_acima_do_limite
           (set_saldo 10000 (ContaCorrente_nova_conta 0 1)) 500 3 600
           eq_refl eq_refl).
Defined.

(** C2.  Three withdrawals of 100 are recorded on a new checking account
    (limit 500, at most 3 withdrawals); the history then has three entries of
    kind "Saque", yet [isinstance(t, Saque)] is false of each of them, the
    count the guard uses is 0, and a fourth withdrawal of 100 is accepted. *)
Theorem quarto_saque_aceito :
  let c3 := executar [OpTransacao (Saque 100) "t1"; OpTransacao (Saque 100) "t2";
                      OpTransacao (Saque 100) "t3"] (ContaCorrente_nova_conta 0 1) in
  variante c3 = Corrente 500 3
  ∧ conta_do_tipo "Saque" (historico c3) = 3%nat
  ∧ saldo c3 = -300
  ∧ numero_saques c3 = 0%nat
  ∧ ret (sacar_de 100 c3) = true
  ∧ saldo (apos (sacar_de 100 c3)) = -400
  ∧ conta_do_tipo "Saque" (historico (apos (registrar (Saque 100) "t4" c3))) = 4%nat.
Proof. vm_compute. repeat split. Qed.

(** ** Sequences of operations *)

Lemma executar_snoc ops op c :
  executar (ops ++ [op]) c = aplicar (executar ops c) op.
Proof. unfold executar. by rewrite fold_left_app. Qed.

(** Along any sequence of transactions the balance is the initial one minus
    the withdrawals recorded meanwhile; recorded deposits do not enter. *)
Lemma saldo_conta_so_saques (ts : list (Transacao * string)) (c : Conta) :
  let c' := executar ((λ p, OpTransacao p.1 p.2) <$> ts) c in
  saldo c' = saldo c - (soma_do_tipo "Saque" (historico c')
                        - soma_do_tipo "Saque" (historico c)).
Proof.
  revert c. induction ts as [|[t agora] ts IH]; intros c.
  - simpl. lia.
  - specialize (IH (apos (registrar t agora c))).
    pose proof (registrar_saldo_e_saques t agora c) as H.
    cbv zeta in *. rewrite fmap_cons.
    set (ops := _ <$> ts) in *. clearbody ops.
    change (executar (OpTransacao (t, agora).1 (t, agora).2 :: ops) c)
      with (executar ops (apos (registrar t agora c))).
    lia.
Qed.

(** C3.  One deposit of 100 applied to a new account: the deposit is recorded
    in the history, the balance stays 0, and so the balance differs from the
    recorded deposits minus the recorded withdrawals, which is 100. *)
Theorem saldo_difere_do_historico :
  let c := executar [OpTransacao (Deposito 100) "t1"] (ContaCorrente_nova_conta 0 1) in
  saldo c = 0
  ∧ soma_do_tipo "Deposito" (historico c) = 100
  ∧ soma_do_tipo "Saque" (historico c) = 0
  ∧ saldo c ≠ soma_do_tipo "Deposito" (historico c)
             - soma_do_tipo "Saque" (historico c).
Proof. vm_compute. repeat split; discriminate. Qed.

(** In exact arithmetic the guards do keep the floor.  From a balance at
    or above the floor of the account (0, or minus the overdraft limit of a
    checking account), no sequence of deposits and withdrawals with integer
    amounts, made through the methods of the account or through transactions,
    takes the balance below the floor; the floor itself does not move. *)
Lemma saldo_nunca_abaixo_do_piso :
  ∀ (ops : list Operacao) (c : Conta),
    piso c <= saldo c →
    piso (executar ops c) = piso c
    ∧ piso c <= saldo (executar ops c).
Proof.
  induction ops as [|op ops IH] using rev_ind; intros c H.
  - done.
  - rewrite executar_snoc. destruct (IH c H) as [Hp Hs].
    pose proof (aplicar_piso (executar ops c) op) as Hstep.
    assert (Hp' : piso (aplicar (executar ops c) op) = piso c).
    { rewrite <- Hp. unfold piso.
      by destruct (aplicar_identidade (executar ops c) op) as [-> _]. }
    split; [done|]. rewrite <- Hp'. apply Hstep. lia.
Qed.

(** C5.  On the floats the amounts are, the guard compares the amount with
    the rounded sum [saldo + limite], and the balance goes below the floor.
    A checking account with limit 1.7, created with balance 0, accepts a
    withdrawal of 0.6 and then one of 1.1, since -0.6 + 1.7 rounds to the
    float of 1.1; the balance is then -1.7000000000000002, below -1.7.  And a
    new account with the default limit 500 accepts the withdrawal of [nan],
    which no guard refuses; its balance is then [nan], which is not at or
    above -500.  The three literals are the floats nearest to 1.7, 0.6 and
    1.1, which is what Python reads them as. *)
Theorem saldo_abaixo_do_piso_binary64 :
  let c0 := Binary64.ContaCorrente_init 1 0 0x1.b333333333333p+0%float 3 in
  let r1 := Binary64.registrar
              (Binary64.Saque 0x1.3333333333333p-1%float) "t1" c0 in
  let r2 := Binary64.registrar
              (Binary64.Saque 0x1.199999999999ap+0%float) "t2"
              (Binary64.apos r1) in
  let r3 := Binary64.registrar (Binary64.Saque PrimFloat.nan) "t3"
              (Binary64.ContaCorrente_nova_conta 0 1) in
  PrimFloat.leb (Binary64.piso c0) (Binary64.saldo c0) = true
  ∧ Binary64.impresso r1 = [MsgSaqueRealizado]
  ∧ Binary64.impresso r2 = [MsgSaqueRealizado]
  ∧ Binary64.piso (Binary64.apos r2) = Binary64.piso c0
  ∧ PrimFloat.ltb (Binary64.saldo (Binary64.apos r2))
                  (Binary64.piso (Binary64.apos r2)) = true
  ∧ Binary64.impresso r3 = [MsgSaqueRealizado]
  ∧ PrimFloat.leb (Binary64.piso (Binary64.apos r3))
                  (Binary64.saldo (Binary64.apos r3)) = false.
Proof. vm_compute. repeat split. Qed.

(** ** The registry *)

Section Registro_props.

Implicit Types (b : Banco) (cmd : Comando) (cmds : list Comando)
  (l : list Conta) (x agora : string).

(** The store never shrinks. *)
Lemma evolui_length l l' : evolui l l' → (length l <= length l')%nat.
Proof.
  intros [l0|l0 k c t agora Hk|l0 i].
  - done.
  - by rewrite length_insert.
  - rewrite length_app. lia.
Qed.

Lemma transacionar_clientes x t agora b :
  clientes (transacionar x t agora b).1 = clientes b.
Proof.
  unfold transacionar.
  destruct (filtrar_cliente x (clientes b)) as [[i p]|]; [|done].
  unfold recuperar_conta_cliente.
  destruct (contas_do_cliente p) as [|k ks]; [done|].
  by destruct (contas b !! k).
Qed.

Lemma transacionar_evolui x t agora b :
  evolui (contas b) (contas (transacionar x t agora b).1).
Proof.
  unfold transacionar.
  destruct (filtrar_cliente x (clientes b)) as [[i p]|]; [|constructor].
  unfold recuperar_conta_cliente.
  destruct (contas_do_cliente p) as [|k ks]; [constructor|].
  destruct (contas b !! k) as [c|] eqn:E; [|constructor].
  simpl. by apply evolui_transacao.
Qed.

Lemma criar_cliente_contas x n d e b :
  contas (criar_cliente x n d e b).1 = contas b.
Proof.
  unfold criar_cliente. by destruct (filtrar_cliente x (clientes b)).
Qed.

(** [criar_conta] adds to the store exactly the account it creates, and
    only for a registered CPF. *)
Lemma criar_conta_contas nc x b :
  contas (criar_conta nc x b).1
  = contas b ++ match filtrar_cliente x (clientes b) with
                | Some (i, _) => [ContaCorrente_nova_conta i nc]
                | None => []
                end.
Proof.
  unfold criar_conta.
  destruct (filtrar_cliente x (clientes b)) as [[i p]|]; simpl; [done|].
  by rewrite app_nil_r.
Qed.

Lemma passo_evolui cmd b : evolui (contas b) (contas (passo cmd b).1).
Proof.
  destruct cmd; simpl; try constructor.
  - apply transacionar_evolui.
  - apply transacionar_evolui.
  - rewrite criar_cliente_contas. constructor.
  - rewrite criar_conta_contas.
    destruct (filtrar_cliente x (clientes b)) as [[i p]|].
    + constructor.
    + rewrite app_nil_r. constructor.
Qed.

Lemma Comando_x_ou_nao cmd : cmd = Cmd_x ∨ cmd ≠ Cmd_x.
Proof. destruct cmd; auto. Qed.

(** The loop one turn at a time, lines included. *)
Lemma laco_passo cmd cmds b :
  cmd ≠ Cmd_x →
  laco (cmd :: cmds) b
  = if existsb excecao (passo cmd b).2 then passo cmd b
    else ((laco cmds (passo cmd b).1).1,
          (passo cmd b).2 ++ (laco cmds (passo cmd b).1).2).
Proof.
  intros Hx. destruct cmd; try done; cbn [laco];
    destruct (passo _ b) as [b1 out1]; cbn [fst snd];
    destruct (existsb excecao out1); try reflexivity;
    destruct (laco cmds b1); reflexivity.
Qed.

(** A property of the two lists that every turn of the menu keeps holds
    when the loop is left, and at every turn before. *)
Lemma laco_invariante (P : Banco → Prop) :
  (∀ cmd b, P b → P (passo cmd b).1) →
  ∀ cmds b, P b → P (laco cmds b).1.
Proof.
  intros Hpasso. induction cmds as [|cmd cmds IH]; intros b Hb; [done|].
  destruct (Comando_x_ou_nao cmd) as [->|Hx]; [done|].
  rewrite laco_passo by done.
  destruct (existsb excecao (passo cmd b).2); [by apply Hpasso|].
  by apply IH, Hpasso.
Qed.

Lemma laco_evolui (P : list Conta → Prop) :
  (∀ l l', evolui l l' → P l → P l') →
  ∀ cmds b, P (contas b) → P (contas (laco cmds b).1).
Proof.
  intros Hev. apply (laco_invariante (λ b, P (contas b))).
  intros cmd b. apply Hev, passo_evolui.
Qed.

Lemma passo_referencias cmd b :
  referencias_validas b → referencias_validas (passo cmd b).1.
Proof.
  intros Hb.
  assert (Ht : ∀ x t agora, referencias_validas (transacionar x t agora b).1).
  { intros x t agora p k. rewrite transacionar_clientes. intros Hp Hk.
    pose proof (Hb p k Hp Hk) as Hlt.
    pose proof (evolui_length _ _ (transacionar_evolui x t agora b)). lia. }
  destruct cmd; simpl; try done.
  - apply Ht.
  - apply Ht.
  - unfold criar_cliente.
    destruct (filtrar_cliente x (clientes b)); [done|].
    intros p k; simpl. rewrite elem_of_app, list_elem_of_singleton.
    intros [Hp| ->] Hk; [by eapply Hb|]. simpl in Hk. by apply elem_of_nil in Hk.
  - unfold criar_conta.
    destruct (filtrar_cliente x (clientes b)) as [[i p0]|] eqn:Ef; [|done].
    apply list_find_Some in Ef as (Hi & _ & _).
    intros p k; simpl. rewrite length_app; simpl.
    intros Hp Hk. apply list_elem_of_lookup in Hp as [j Hj].
    apply list_lookup_insert_Some in Hj as [(-> & <- & _)|(_ & Hj)].
    + simpl in Hk. apply elem_of_app in Hk as [Hk|Hk].
      * assert (k < length (contas b))%nat; [|lia].
        eapply Hb; [|done]. by eapply list_elem_of_lookup_2.
      * apply list_elem_of_singleton in Hk. lia.
    + assert (k < length (contas b))%nat; [|lia].
      eapply Hb; [|done]. by eapply list_elem_of_lookup_2.
Qed.

Lemma main_referencias cmds : referencias_validas (main cmds).1.
Proof.
  unfold main. apply (laco_invariante referencias_validas).
  - apply passo_referencias.
  - intros p k Hp. by apply elem_of_nil in Hp.
Qed.

Lemma evolui_em_sequencia l l' : evolui l l' → em_sequencia l → em_sequencia l'.
Proof.
  unfold em_sequencia. intros Hev Hl.
  destruct Hev as [l|l k c t agora Hk|l i].
  - done.
  - rewrite list_fmap_insert, length_insert, <- Hl.
    apply list_insert_id. rewrite list_lookup_fmap, Hk. simpl. f_equal.
    symmetry. exact (proj1 (proj2 (aplicar_identidade c (OpTransacao t agora)))).
  - rewrite fmap_app, length_app, Nat.add_comm. simpl length.
    rewrite seq_S, fmap_app, <- Hl. done.
Qed.

Lemma evolui_correntes l l' :
  evolui l l' →
  Forall (λ c, variante c = Corrente 500 3) l →
  Forall (λ c, variante c = Corrente 500 3) l'.
Proof.
  intros Hev Hl. destruct Hev as [l|l k c t agora Hk|l i].
  - done.
  - apply Forall_insert; [done|].
    destruct (aplicar_identidade c (OpTransacao t agora)) as (Hv & _).
    simpl in Hv. rewrite Hv. eapply Forall_lookup_1 in Hl; [exact Hl|exact Hk].
  - apply Forall_app. split; [done|]. by repeat constructor.
Qed.

(** In every state [main] reaches, the guard on the number of withdrawals
    counts none. *)
Lemma main_numero_saques cmds :
  Forall (λ c, numero_saques c = 0%nat) (contas (main cmds).1).
Proof.
  eapply Forall_impl; [|intros c; apply numero_saques_so_dicts].
  unfold main. apply (laco_evolui (Forall (λ c, so_dicts (historico c)))); [|constructor].
  intros l l' Hev Hl. destruct Hev as [l|l k c t agora Hk|l i].
  - done.
  - apply Forall_insert; [done|]. apply registrar_so_dicts.
    eapply Forall_lookup_1 in Hl; [exact Hl|exact Hk].
  - apply Forall_app. split; [done|]. repeat constructor.
Qed.

End Registro_props.

(** ** Creation of accounts *)

(** C10.  A new account, of either class and whatever its number, owner and
    limits, has balance 0 and an empty history; so has the account that
    [criar_conta] adds to the store, which is the only thing it adds, and it
    adds one exactly when the CPF is registered. *)
Theorem conta_nova_zerada :
  ∀ (n : Z) (cli : nat) (lim ls : Z) (x : string) (b : Banco),
    (saldo (Conta_init n cli) = 0
     ∧ transacoes (historico (Conta_init n cli)) = [])
    ∧ (saldo (ContaCorrente_init n cli lim ls) = 0
       ∧ transacoes (historico (ContaCorrente_init n cli lim ls)) = [])
    ∧ ∃ novas : list Conta,
        contas (criar_conta n x b).1 = contas b ++ novas
        ∧ length novas = match filtrar_cliente x (clientes b) with
                         | Some _ => 1%nat
                         | None => 0%nat
                         end
        ∧ Forall (λ c, saldo c = 0 ∧ transacoes (historico c) = []) novas.
Proof.
  intros n cli lim ls x b. do 2 (split; [done|]).
  rewrite criar_conta_contas.
  destruct (filtrar_cliente x (clientes b)) as [[i p]|]; eexists;
    (split; [reflexivity|]); split; try done; by repeat constructor.
Qed.

(** C9.  In every state [main] reaches, each stored account is a checking
    account with limit 500 and at most 3 withdrawals; since the store holds
    every account ever created, no turn of the menu creates a basic one. *)
Theorem toda_conta_e_corrente :
  ∀ cmds : list Comando,
    Forall (λ c, variante c = Corrente 500 3) (contas (main cmds).1).
Proof.
  intros cmds. unfold main.
  apply (laco_evolui (Forall (λ c, variante c = Corrente 500 3))
           evolui_correntes).
  constructor.
Qed.

(** C8.  In every state [main] reaches, the stored accounts carry the numbers
    1, 2, 3, ... in the order of their creation, whoever owns them; and the
    account a further "nc" adds, if the CPF is registered, gets the number of
    stored accounts plus 1. *)
Theorem numeros_de_conta_sequenciais :
  ∀ (cmds : list Comando) (x : string),
    let b := (main cmds).1 in
    numero <$> contas b
    = (λ k : nat, Z.of_nat k + 1) <$> seq 0 (length (contas b))
    ∧ ∃ novas : list Conta,
        contas (passo (Cmd_nc x) b).1 = contas b ++ novas
        ∧ length novas = match filtrar_cliente x (clientes b) with
                         | Some _ => 1%nat
                         | None => 0%nat
                         end
        ∧ Forall (λ c, numero c = Z.of_nat (length (contas b)) + 1) novas.
Proof.
  intros cmds x b. split.
  - subst b. unfold main. apply (laco_evolui em_sequencia evolui_em_sequencia).
    reflexivity.
  - simpl. rewrite criar_conta_contas.
    destruct (filtrar_cliente x (clientes b)) as [[i p]|]; eexists;
      (split; [reflexivity|]); split; try done; by repeat constructor.
Qed.

(** * Further properties of the menu and of the accounts *)

(** ** Lookup by CPF *)

Section Clientes_props.

Implicit Types (b : Banco) (cs : list PessoaFisica) (p : PessoaFisica)
  (x y : string).

Lemma filtrar_cliente_Some x cs i p :
  filtrar_cliente x cs = Some (i, p) → cs !! i = Some p ∧ cpf p = x.
Proof. intros H. apply list_find_Some in H as (? & ? & _). done. Qed.

Lemma filtrar_cliente_None x cs :
  filtrar_cliente x cs = None ↔ x ∉ cpf <$> cs.
Proof.
  unfold filtrar_cliente. rewrite list_find_None, Forall_forall. split.
  - intros H (p & -> & Hp)%list_elem_of_fmap. by apply (H p).
  - intros H p Hp E. apply H. rewrite <- E. by apply list_elem_of_fmap_2.
Qed.

Lemma filtrar_cliente_elem_of x cs :
  x ∈ cpf <$> cs → ∃ i p, filtrar_cliente x cs = Some (i, p).
Proof.
  intros H. destruct (filtrar_cliente x cs) as [[i p]|] eqn:E; [eauto|].
  by apply filtrar_cliente_None in E.
Qed.

(** Replacing a client by one with the same CPF does not move any lookup. *)
Lemma filtrar_cliente_insert x cs i p p' :
  cs !! i = Some p → cpf p' = cpf p →
  filtrar_cliente x (<[i := p']> cs)
  = (λ r, if decide (r.1 = i) then (i, p') else r) <$> filtrar_cliente x cs.
Proof.
  unfold filtrar_cliente. revert i. induction cs as [|q cs IH]; intros i Hi Hc.
  - done.
  - destruct i as [|i]; simpl in *.
    + injection Hi as ->. rewrite Hc.
      destruct (decide (cpf p = x)); simpl; [done|].
      destruct (list_find _ cs) as [[j r]|]; simpl; done.
    + destruct (decide (cpf q = x)); simpl; [done|].
      rewrite (IH i Hi Hc).
      destruct (list_find _ cs) as [[j r]|]; simpl; [|done].
      destruct (decide (j = i)) as [->|Hne].
      * rewrite decide_True by done. done.
      * rewrite decide_False by lia. done.
Qed.

Lemma criar_conta_cpfs nc x b :
  cpf <$> clientes (criar_conta nc x b).1 = cpf <$> clientes b.
Proof.
  unfold criar_conta.
  destruct (filtrar_cliente x (clientes b)) as [[i p]|] eqn:E; [|done].
  apply filtrar_cliente_Some in E as [Hi _]. simpl.
  rewrite list_fmap_insert. apply list_insert_id.
  by rewrite list_lookup_fmap, Hi.
Qed.

Lemma passo_cpfs cmd b :
  NoDup (cpf <$> clientes b) → NoDup (cpf <$> clientes (passo cmd b).1).
Proof.
  intros Hb. destruct cmd; simpl; try done.
  - unfold depositar. by rewrite transacionar_clientes.
  - unfold sacar. by rewrite transacionar_clientes.
  - unfold criar_cliente.
    destruct (filtrar_cliente x (clientes b)) eqn:E; [done|]. simpl.
    rewrite fmap_app. apply NoDup_app. split_and!; [done| |apply NoDup_singleton].
    intros y Hy ->%list_elem_of_singleton. simpl in Hy.
    by apply filtrar_cliente_None in E.
  - by rewrite criar_conta_cpfs.
Qed.

End Clientes_props.

(** X1.  In every state [main] reaches no two clients have the same CPF:
    [criar_cliente] refuses a CPF that [filtrar_cliente] finds, and nothing
    else adds a client or changes a CPF. *)
Theorem cpfs_distintos :
  ∀ cmds : list Comando, NoDup (cpf <$> clientes (main cmds).1).
Proof.
  intros cmds. unfold main.
  apply (laco_invariante (λ b, NoDup (cpf <$> clientes b))).
  - apply passo_cpfs.
  - constructor.
Qed.

(** X2.  Registering a CPF that is not yet there and looking it up: the new
    client is found, at the end of the list, with the data given and without
    accounts; the lookup of every other CPF is as before, and the store of
    accounts is untouched. *)
Theorem criar_cliente_e_filtrar :
  ∀ (b : Banco) (x n d e : string),
    x ∉ cpf <$> clientes b →
    let b' := (criar_cliente x n d e b).1 in
    filtrar_cliente x (clientes b')
    = Some (length (clientes b), mkPessoaFisica e [] n d x)
    ∧ (∀ y, y ≠ x →
            filtrar_cliente y (clientes b') = filtrar_cliente y (clientes b))
    ∧ contas b' = contas b
    ∧ (criar_cliente x n d e b).2 = [MsgClienteCriado].
Proof.
  intros b x n d e Hx b'. subst b'.
  apply filtrar_cliente_None in Hx as E. unfold criar_cliente. rewrite E.
  simpl. split_and!; try done.
  - unfold filtrar_cliente in *. rewrite list_find_app_r by done.
    simpl. rewrite decide_True by done. done.
  - intros y Hy. unfold filtrar_cliente.
    destruct (list_find (λ p, cpf p = y) (clientes b)) as [[i p]|] eqn:Ey.
    + by apply list_find_app_l.
    + rewrite list_find_app_r by done. simpl. by rewrite decide_False.
Qed.

Lemma criar_cliente_e_filtrar_witness :
  let b := (main [Cmd_nu "111" "Ana" "01-01-1990" "Rua A"; Cmd_nc "111"]).1 in
  let b' := (criar_cliente "222" "Rui" "02-02-1980" "Rua B" b).1 in
  ("222" ∉ cpf <$> clientes b)
  ∧ filtrar_cliente "222" (clientes b')
    = Some (1%nat, mkPessoaFisica "Rua B" [] "Rui" "02-02-1980" "222").
Proof.
  assert (H : "222" ∉ cpf <$> clientes
            (main [Cmd_nu "111" "Ana" "01-01-1990" "Rua A"; Cmd_nc "111"]).1).
  { vm_compute. intros H. apply list_elem_of_singleton in H. discriminate. }
  split; [exact H|].
  exact (proj1 (criar_cliente_e_filtrar _ "222" "Rui" "02-02-1980" "Rua B" H)).
Defined.

(** X3.  Registering a CPF that is already there changes neither list and
    prints the refusal, whatever the other data are. *)
Theorem criar_cliente_cpf_repetido :
  ∀ (b : Banco) (x n d e : string),
    x ∈ cpf <$> clientes b →
    criar_cliente x n d e b = (b, [MsgCpfJaExiste]).
Proof.
  intros b x n d e Hx. unfold criar_cliente.
  by destruct (filtrar_cliente_elem_of _ _ Hx) as (i & p & ->).
Qed.

Lemma criar_cliente_cpf_repetido_witness :
  let b := (main [Cmd_nu "111" "Ana" "01-01-1990" "Rua A"]).1 in
  criar_cliente "111" "Eva" "03-03-1970" "Rua C" b = (b, [MsgCpfJaExiste]).
Proof.
  apply (criar_cliente_cpf_repetido
           (main [Cmd_nu "111" "Ana" "01-01-1990" "Rua A"]).1).
  vm_compute. apply list_elem_of_here.
Defined.

(** X4.  For a CPF that is not registered, a deposit, a withdrawal and the
    creation of an account each leave both lists as they are and only print
    that the client was not found. *)
Theorem cpf_desconhecido :
  ∀ (b : Banco) (x agora : string) (v nc : Z),
    x ∉ cpf <$> clientes b →
    depositar x v agora b = (b, [MsgClienteNaoEncontrado])
    ∧ sacar x v agora b = (b, [MsgClienteNaoEncontrado])
    ∧ criar_conta nc x b = (b, [MsgContaNaoCriada]).
Proof.
  intros b x agora v nc Hx. apply filtrar_cliente_None in Hx.
  unfold depositar, sacar, transacionar, criar_conta. by rewrite Hx.
Qed.

Lemma cpf_desconhecido_witness :
  let b := (main [Cmd_nu "111" "Ana" "01-01-1990" "Rua A"; Cmd_nc "111"]).1 in
  depositar "999" 10 "t" b = (b, [MsgClienteNaoEncontrado])
  ∧ sacar "999" 10 "t" b = (b, [MsgClienteNaoEncontrado])
  ∧ criar_conta 2 "999" b = (b, [MsgContaNaoCriada]).
Proof.
  apply (cpf_desconhecido
           (main [Cmd_nu "111" "Ana" "01-01-1990" "Rua A"; Cmd_nc "111"]).1).
  vm_compute. intros H. apply list_elem_of_singleton in H. discriminate.
Defined.

(** ** More on the methods of an account *)

Section Conta_mais.

Implicit Types (c : Conta) (v lim ls : Z) (agora : string) (op : Operacao).

(** When an account accepts a withdrawal. *)
Lemma sacar_de_aceita v c :
  ret (sacar_de v c) = true ↔
  0 < v ∧ match variante c with
          | Base => v <= saldo c
          | Corrente lim ls =>
              v <= lim ∧ Z.of_nat (numero_saques c) < ls ∧ v <= saldo c + lim
          end.
Proof.
  unfold sacar_de. destruct (variante c) as [|lim ls].
  - unfold Conta_sacar. casos_Z; simpl; split; try done; intros; lia.
  - unfold ContaCorrente_sacar. casos_Z; simpl; split; try done; intros; lia.
Qed.

(** What one operation adds to the history: nothing, or its own entry. *)
Lemma aplicar_historico c op :
  transacoes (historico (aplicar c op)) = transacoes (historico c)
  ∨ transacoes (historico (aplicar c op))
    = transacoes (historico c) ++ entrada_de op.
Proof.
  destruct op as [v|v|[v|v] agora]; simpl.
  - left. by destruct (sacar_de_casos v c) as [(_ & -> & _)|(_ & -> & _)].
  - left. unfold depositar_em, Conta_depositar. by casos_Z.
  - unfold Saque_registrar.
    destruct (sacar_de_casos v c) as [(-> & -> & _)|(-> & -> & _)]; auto.
  - auto.
Qed.

Lemma registrar_prefixo t agora c :
  transacoes (historico c)
    `prefix_of` transacoes (historico (apos (registrar t agora c))).
Proof.
  destruct (aplicar_historico c (OpTransacao t agora)) as [H|H];
    simpl in H; rewrite H; [done|]. by apply prefix_app_r.
Qed.

End Conta_mais.

(** X5.  The history of an account only grows, and only by entries of the
    transactions applied: after any sequence of operations the history is the
    old one followed by some of the entries of the transactions of the
    sequence, in the order of the sequence.  Calls of [sacar] and [depositar]
    that do not go through a transaction leave no entry. *)
Theorem historico_so_cresce :
  ∀ (ops : list Operacao) (c : Conta),
    ∃ novos : list Objeto,
      transacoes (historico (executar ops c))
      = transacoes (historico c) ++ novos
      ∧ novos `sublist_of` (ops ≫= entrada_de).
Proof.
  induction ops as [|op ops IH] using rev_ind; intros c.
  - exists []. split; [by rewrite app_nil_r|constructor].
  - destruct (IH c) as (novos & E & Hs). rewrite executar_snoc, bind_app.
    simpl. rewrite app_nil_r.
    destruct (aplicar_historico (executar ops c) op) as [H|H]; rewrite H, E.
    + exists novos. split; [done|]. by apply sublist_inserts_r.
    + exists (novos ++ entrada_de op). split; [by rewrite app_assoc|].
      by apply sublist_app.
Qed.

(** X6.  If an account accepts the withdrawal of an amount, it accepts in the
    same state the withdrawal of every smaller positive amount. *)
Theorem sacar_de_monotono :
  ∀ (c : Conta) (v v' : Z),
    ret (sacar_de v c) = true →
    0 < v' <= v →
    ret (sacar_de v' c) = true.
Proof.
  intros c v v' H Hv. apply sacar_de_aceita in H. apply sacar_de_aceita.
  destruct (variante c); lia.
Qed.

Lemma sacar_de_monotono_witness :
  ret (sacar_de 120 (set_saldo (-300) (ContaCorrente_nova_conta 0 1))) = true.
Proof.
  apply (sacar_de_monotono (set_saldo (-300) (ContaCorrente_nova_conta 0 1))
           200 120); [reflexivity|lia].
Defined.

(** ** Ownership and persistence in the registry *)

Section Transicao_props.

Implicit Types (b : Banco) (cmd : Comando) (cmds : list Comando)
  (p : PessoaFisica) (c : Conta) (x agora : string).

Lemma transacionar_transicao x t agora b :
  transicao b (transacionar x t agora b).1.
Proof.
  unfold transacionar.
  destruct (filtrar_cliente x (clientes b)) as [[i p]|] eqn:E; [|constructor].
  apply filtrar_cliente_Some in E as [Hi _]. unfold recuperar_conta_cliente.
  destruct (contas_do_cliente p) as [|k ks] eqn:Ek; [constructor|].
  destruct (contas b !! k) as [c|] eqn:Ec; [|constructor].
  apply (transicao_transacao b k c t agora Ec).
  exists i, p. by rewrite Ek.
Qed.

Lemma passo_transicao cmd b : transicao b (passo cmd b).1.
Proof.
  destruct cmd; simpl; try constructor.
  - apply transacionar_transicao.
  - apply transacionar_transicao.
  - unfold criar_cliente.
    destruct (filtrar_cliente x (clientes b)) eqn:E; [constructor|].
    apply (transicao_cliente b (PessoaFisica_init n d x e)); [done|].
    by apply filtrar_cliente_None.
  - unfold criar_conta.
    destruct (filtrar_cliente x (clientes b)) as [[i p]|] eqn:E; [|constructor].
    apply filtrar_cliente_Some in E as [Hi _].
    by apply (transicao_conta b i p).
Qed.

(** Induction on the turns of the menu. *)
Lemma laco_transicao (P : Banco → Prop) :
  (∀ b b', transicao b b' → P b → P b') →
  ∀ cmds b, P b → P (laco cmds b).1.
Proof.
  intros Htr. apply laco_invariante. intros cmd b. apply Htr, passo_transicao.
Qed.

Lemma primeira_de_transicao b b' k :
  transicao b b' → primeira_de b k → primeira_de b' k.
Proof.
  intros Htr (i & p & Hi & Hk). destruct Htr as [b|b k0 c t agora _ _|b q _ _|b j q Hj].
  - by exists i, p.
  - by exists i, p.
  - exists i, p. split; [|done]. by apply lookup_app_l_Some.
  - unfold primeira_de. simpl. destruct (decide (i = j)) as [->|Hne].
    + exists j, (Cliente_adicionar_conta (length (contas b)) q). split.
      * apply list_lookup_insert_eq. by eapply lookup_lt_Some.
      * simpl. rewrite head_app. assert (q = p) as -> by congruence.
        by rewrite Hk.
    + exists i, p. split; [|done]. by rewrite list_lookup_insert_ne.
Qed.

Lemma posse_consistente_transicao b b' :
  transicao b b' → posse_consistente b → posse_consistente b'.
Proof.
  intros Htr [H1 H2].
  destruct Htr as [b|b k0 c0 t agora Hk0 _|b q Hq _|b j q Hj]; [done|..].
  - pose proof (proj1 (proj2 (proj2 (aplicar_identidade c0 (OpTransacao t agora)))))
      as Hcli. simpl in Hcli.
    split; simpl.
    + intros i p k Hi Hk. destruct (H1 i p k Hi Hk) as (c & Hc & Hci).
      destruct (decide (k = k0)) as [->|Hne].
      * eexists. split; [apply list_lookup_insert_eq; by eapply lookup_lt_Some|].
        congruence.
      * exists c. by rewrite list_lookup_insert_ne.
    + intros k c [(-> & <- & _)|(Hne & Hc)]%list_lookup_insert_Some.
      * rewrite Hcli. by apply H2.
      * by apply H2.
  - split; simpl.
    + intros i p k [Hi|(_ & Hi)]%lookup_app_Some Hk; [by eapply H1|].
      apply list_lookup_singleton_Some in Hi as [_ <-].
      rewrite Hq in Hk. by apply elem_of_nil in Hk.
    + intros k c Hc. destruct (H2 k c Hc) as (p & Hp & Hk).
      exists p. split; [by apply lookup_app_l_Some|done].
  - split; simpl.
    + intros i p k [(E1 & E2 & _)|(Hne & Hi)]%list_lookup_insert_Some Hk.
      * subst i p. simpl in Hk. apply elem_of_app in Hk as [Hk | ->%list_elem_of_singleton].
        -- destruct (H1 j q k Hj Hk) as (c & Hc & Hci).
           exists c. split; [by apply lookup_app_l_Some|done].
        -- eexists. split; [by apply list_lookup_middle|reflexivity].
      * destruct (H1 i p k Hi Hk) as (c & Hc & Hci).
        exists c. split; [by apply lookup_app_l_Some|done].
    + intros k c [Hc|(Hle & Hc)]%lookup_app_Some.
      * destruct (H2 k c Hc) as (p & Hp & Hk).
        destruct (decide (cliente c = j)) as [E|Hne].
        -- exists (Cliente_adicionar_conta (length (contas b)) q). split.
           ++ rewrite E. apply list_lookup_insert_eq. by eapply lookup_lt_Some.
           ++ simpl. apply elem_of_app. left. congruence.
        -- exists p. split; [by rewrite list_lookup_insert_ne|done].
      * apply list_lookup_singleton_Some in Hc as [Hk <-]. simpl.
        exists (Cliente_adicionar_conta (length (contas b)) q). split.
        -- apply list_lookup_insert_eq. by eapply lookup_lt_Some.
        -- simpl. apply elem_of_app. right. apply list_elem_of_singleton.
           lia.
Qed.

Lemma so_primeiras_mudam_transicao b b' :
  transicao b b' → so_primeiras_mudam b → so_primeiras_mudam b'.
Proof.
  intros Htr H k c Hc.
  assert (Hold : ∀ c0, contas b !! k = Some c0 →
            primeira_de b' k ∨ (saldo c0 = 0 ∧ transacoes (historico c0) = [])).
  { intros c0 Hc0. destruct (H k c0 Hc0) as [Hp|Hz]; [left|by right].
    by eapply primeira_de_transicao. }
  destruct Htr as [b|b k0 c0 t agora Hk0 Hp|b q _ _|b j q Hj]; simpl in *.
  - by apply Hold.
  - apply list_lookup_insert_Some in Hc as [(-> & <- & _)|(Hne & Hc)].
    + left. destruct Hp as (i & p & ? & ?). by exists i, p.
    + by apply Hold.
  - by apply Hold.
  - apply lookup_app_Some in Hc as [Hc|(_ & Hc)]; [by apply Hold|].
    apply list_lookup_singleton_Some in Hc as [_ <-]. by right.
Qed.

End Transicao_props.

(** X8.  In every state [main] reaches the two directions of ownership agree:
    every account a client lists is in the store and names that client as its
    owner, and every account in the store is listed by the client it names. *)
Theorem posse_sempre_consistente :
  ∀ cmds : list Comando, posse_consistente (main cmds).1.
Proof.
  intros cmds. unfold main.
  apply (laco_transicao posse_consistente posse_consistente_transicao).
  split.
  - intros i p k Hi. simpl in Hi. by rewrite lookup_nil in Hi.
  - intros k c Hc. simpl in Hc. by rewrite lookup_nil in Hc.
Qed.

(** X9.  In every state [main] reaches, an account that is not the first
    account of its owner still has balance 0 and an empty history: the menu
    only ever operates on the first account of a client. *)
Theorem so_a_primeira_conta_muda :
  ∀ cmds : list Comando, so_primeiras_mudam (main cmds).1.
Proof.
  intros cmds. unfold main.
  apply (laco_transicao so_primeiras_mudam so_primeiras_mudam_transicao).
  intros k c Hc. simpl in Hc. by rewrite lookup_nil in Hc.
Qed.

Section Persistencia_props.

Implicit Types (b : Banco) (cmd : Comando) (cmds : list Comando)
  (p : PessoaFisica) (c : Conta) (x agora : string).

Lemma conta_do_menu_transicao x k b b' :
  transicao b b' → conta_do_menu x b = Some k → conta_do_menu x b' = Some k.
Proof.
  unfold conta_do_menu.
  intros [b0|b0 k0 c t agora _ _|b0 q _ _|b0 j q Hj]; simpl; try done.
  - destruct (filtrar_cliente x (clientes b0)) as [[i p]|] eqn:E; [|done].
    unfold filtrar_cliente in *. by rewrite (list_find_app_l _ _ _ _ _ E).
  - rewrite (filtrar_cliente_insert x _ j q
               (Cliente_adicionar_conta (length (contas b0)) q) Hj eq_refl).
    destruct (filtrar_cliente x (clientes b0)) as [[i p]|] eqn:E; [|done].
    simpl. destruct (decide (i = j)) as [->|Hne]; [|done].
    apply filtrar_cliente_Some in E as [Hi _].
    assert (q = p) as -> by congruence.
    simpl. rewrite head_app. by intros ->.
Qed.

Lemma mesma_conta_registrar t agora c : mesma_conta c (apos (registrar t agora c)).
Proof.
  destruct (aplicar_identidade c (OpTransacao t agora)) as (? & ? & ? & ?).
  split_and!; try done. apply registrar_prefixo.
Qed.

Lemma mesma_conta_trans c1 c2 c3 :
  mesma_conta c1 c2 → mesma_conta c2 c3 → mesma_conta c1 c3.
Proof.
  intros (? & ? & ? & ? & ?) (? & ? & ? & ? & ?).
  split_and!; try congruence. by etrans.
Qed.

Lemma conta_persiste_transicao k c b b' :
  transicao b b' →
  (∃ c', contas b !! k = Some c' ∧ mesma_conta c c') →
  ∃ c', contas b' !! k = Some c' ∧ mesma_conta c c'.
Proof.
  intros Htr (c' & Hk & Hm).
  destruct Htr as [b0|b0 k0 c0 t agora Hk0 _|b0 q _ _|b0 j q Hj]; simpl.
  - eauto.
  - destruct (decide (k = k0)) as [->|Hne].
    + eexists. split; [apply list_lookup_insert_eq; by eapply lookup_lt_Some|].
      assert (c0 = c') as -> by congruence.
      eapply mesma_conta_trans; [done|apply mesma_conta_registrar].
    + exists c'. by rewrite list_lookup_insert_ne.
  - eauto.
  - exists c'. split; [by apply lookup_app_l_Some|done].
Qed.

Lemma cliente_persiste_transicao i p b b' :
  transicao b b' →
  (∃ p', clientes b !! i = Some p' ∧ mesmo_cliente p p') →
  ∃ p', clientes b' !! i = Some p' ∧ mesmo_cliente p p'.
Proof.
  intros Htr (p' & Hi & Hm).
  destruct Htr as [b0|b0 k0 c0 t agora Hk0 _|b0 q _ _|b0 j q Hj]; simpl.
  - eauto.
  - eauto.
  - exists p'. split; [by apply lookup_app_l_Some|done].
  - destruct (decide (i = j)) as [->|Hne].
    + eexists. split; [apply list_lookup_insert_eq; by eapply lookup_lt_Some|].
      assert (q = p') as -> by congruence.
      destruct Hm as (? & ? & ? & ? & ?). split_and!; try done.
      simpl. by apply prefix_app_r.
    + exists p'. by rewrite list_lookup_insert_ne.
Qed.

End Persistencia_props.

(** X10.  Once a CPF has an account to operate on, it is the same account
    after any further turns of the menu: deposits, withdrawals and statements
    for a CPF always go to the first account created for it, even when the
    client gets more accounts or other clients are registered. *)
Theorem conta_do_menu_estavel :
  ∀ (cmds : list Comando) (b : Banco) (x : string) (k : nat),
    conta_do_menu x b = Some k →
    conta_do_menu x (laco cmds b).1 = Some k.
Proof.
  intros cmds b x k.
  apply (laco_transicao (λ b', conta_do_menu x b' = Some k)).
  intros b1 b2. apply conta_do_menu_transicao.
Qed.

Lemma conta_do_menu_estavel_witness :
  let b := (main [Cmd_nu "111" "Ana" "01-01-1990" "Rua A";
                  Cmd_nu "222" "Rui" "02-02-1980" "Rua B";
                  Cmd_nc "222"; Cmd_nc "111"]).1 in
  conta_do_menu "111"
    (laco [Cmd_nc "111"; Cmd_s "111" 50 "t"; Cmd_nu "333" "Eva" "d" "e";
           Cmd_nc "222"] b).1 = Some 1%nat.
Proof.
  apply (conta_do_menu_estavel _
           (main [Cmd_nu "111" "Ana" "01-01-1990" "Rua A";
                  Cmd_nu "222" "Rui" "02-02-1980" "Rua B";
                  Cmd_nc "222"; Cmd_nc "111"]).1).
  reflexivity.
Defined.

(** X11.  A stored account is never removed, moved or replaced by another:
    after any further turns of the menu the same place of the store holds an
    account with the same number, branch, owner, class and limits, whose
    history starts with the history it had. *)
Theorem conta_persiste :
  ∀ (cmds : list Comando) (b : Banco) (k : nat) (c : Conta),
    contas b !! k = Some c →
    ∃ c', contas (laco cmds b).1 !! k = Some c'
          ∧ numero c' = numero c ∧ agencia c' = agencia c
          ∧ cliente c' = cliente c ∧ variante c' = variante c
          ∧ transacoes (historico c) `prefix_of` transacoes (historico c').
Proof.
  intros cmds b k c Hk.
  apply (laco_transicao
           (λ b', ∃ c', contas b' !! k = Some c' ∧ mesma_conta c c')).
  - intros b1 b2. apply conta_persiste_transicao.
  - exists c. split; [done|]. by split_and!.
Qed.

Lemma conta_persiste_witness :
  let b := (main [Cmd_nu "111" "Ana" "01-01-1990" "Rua A"; Cmd_nc "111";
                  Cmd_s "111" 70 "t1"]).1 in
  ∃ c', contas (laco [Cmd_s "111" 30 "t2"; Cmd_nc "111"; Cmd_d "111" 5 "t3"]
                  b).1 !! 0%nat = Some c'
        ∧ numero c' = 1 ∧ agencia c' = "0001"
        ∧ cliente c' = 0%nat ∧ variante c' = Corrente 500 3
        ∧ [ODict (mkRegistro "Saque" 70 "t1")]
            `prefix_of` transacoes (historico c').
Proof.
  apply (conta_persiste _
           (main [Cmd_nu "111" "Ana" "01-01-1990" "Rua A"; Cmd_nc "111";
                  Cmd_s "111" 70 "t1"]).1 0%nat
           (mkConta (-70) 1 "0001" 0
              (mkHistorico [ODict (mkRegistro "Saque" 70 "t1")])
              (Corrente 500 3))).
  reflexivity.
Defined.

(** X12.  A registered client is never removed or moved, and its CPF, name,
    date of birth and address never change; the accounts it lists are only
    added to, at the end. *)
Theorem cliente_persiste :
  ∀ (cmds : list Comando) (b : Banco) (i : nat) (p : PessoaFisica),
    clientes b !! i = Some p →
    ∃ p', clientes (laco cmds b).1 !! i = Some p'
          ∧ cpf p' = cpf p ∧ nome p' = nome p
          ∧ data_nascimento p' = data_nascimento p ∧ endereco p' = endereco p
          ∧ contas_do_cliente p `prefix_of` contas_do_cliente p'.
Proof.
  intros cmds b i p Hi.
  apply (laco_transicao
           (λ b', ∃ p', clientes b' !! i = Some p' ∧ mesmo_cliente p p')).
  - intros b1 b2. apply cliente_persiste_transicao.
  - exists p. split; [done|]. by split_and!.
Qed.

Lemma cliente_persiste_witness :
  let b := (main [Cmd_nu "111" "Ana" "01-01-1990" "Rua A"; Cmd_nc "111"]).1 in
  ∃ p', clientes (laco [Cmd_nu "111" "Eva" "d" "e"; Cmd_nc "111";
                        Cmd_s "111" 30 "t2"] b).1 !! 0%nat = Some p'
        ∧ cpf p' = "111" ∧ nome p' = "Ana"
        ∧ data_nascimento p' = "01-01-1990" ∧ endereco p' = "Rua A"
        ∧ [0%nat] `prefix_of` contas_do_cliente p'.
Proof.
  apply (cliente_persiste _
           (main [Cmd_nu "111" "Ana" "01-01-1990" "Rua A"; Cmd_nc "111"]).1
           0%nat (mkPessoaFisica "Rua A" [0%nat] "Ana" "01-01-1990" "111")).
  reflexivity.
Defined.

(** X13.  A deposit or a withdrawal made through the menu for a CPF touches
    no account but the one the menu operates on for that CPF, and no
    client. *)
Theorem transacionar_so_uma_conta :
  ∀ (b : Banco) (x agora : string) (t : Transacao) (k : nat),
    conta_do_menu x b ≠ Some k →
    contas (transacionar x t agora b).1 !! k = contas b !! k
    ∧ clientes (transacionar x t agora b).1 = clientes b.
Proof.
  intros b x agora t k Hk. split; [|apply transacionar_clientes].
  unfold conta_do_menu in Hk. unfold transacionar.
  destruct (filtrar_cliente x (clientes b)) as [[i p]|]; [|done].
  unfold recuperar_conta_cliente.
  destruct (contas_do_cliente p) as [|k0 ks]; [done|].
  destruct (contas b !! k0) as [c|]; [|done].
  simpl in *. apply list_lookup_insert_ne. congruence.
Qed.

Lemma transacionar_so_uma_conta_witness :
  let b := (main [Cmd_nu "111" "Ana" "01-01-1990" "Rua A"; Cmd_nc "111";
                  Cmd_nc "111"]).1 in
  contas (transacionar "111" (Saque 40) "t" b).1 !! 1%nat = contas b !! 1%nat
  ∧ clientes (transacionar "111" (Saque 40) "t" b).1 = clientes b.
Proof.
  apply (transacionar_so_uma_conta
           (main [Cmd_nu "111" "Ana" "01-01-1990" "Rua A"; Cmd_nc "111";
                  Cmd_nc "111"]).1).
  vm_compute. discriminate.
Defined.

(** ** What [main] prints *)

Section Saida_props.

Implicit Types (b : Banco) (cmd : Comando) (cmds : list Comando)
  (c : Conta) (l : list Conta) (agora : string).

Lemma evolui_so_dicts l l' :
  evolui l l' →
  Forall (λ c, so_dicts (historico c)) l →
  Forall (λ c, so_dicts (historico c)) l'.
Proof.
  intros Hev Hl. destruct Hev as [l|l k c t agora Hk|l i].
  - done.
  - apply Forall_insert; [done|]. apply registrar_so_dicts.
    eapply Forall_lookup_1 in Hl; [exact Hl|exact Hk].
  - apply Forall_app. split; [done|]. repeat constructor.
Qed.

(** What a withdrawal prints on a checking account whose history holds
    dictionaries only: never the refusal for the number of withdrawals. *)
Lemma registrar_saida t agora c :
  variante c = Corrente 500 3 → so_dicts (historico c) →
  Forall (λ m, nunca_impressa m = false) (impresso (registrar t agora c)).
Proof.
  intros Hv Hd. destruct t as [v|v]; simpl; [|constructor].
  assert (Hs : Forall (λ m, nunca_impressa m = false) (impresso (sacar_de v c))).
  { unfold sacar_de. rewrite Hv. unfold ContaCorrente_sacar.
    rewrite (numero_saques_so_dicts c Hd).
    casos_Z; first [lia | repeat constructor]. }
  unfold Saque_registrar. by destruct (ret (sacar_de v c)).
Qed.

Lemma linhas_do_extrato_saida (l : list Objeto) :
  Forall (λ m, nunca_impressa m = false) (linhas_do_extrato l).
Proof.
  induction l as [|[d|t] l IH]; simpl; by repeat constructor.
Qed.

Lemma exibir_extrato_saida x b :
  Forall (λ m, nunca_impressa m = false) (exibir_extrato x b).
Proof.
  unfold exibir_extrato.
  destruct (filtrar_cliente x (clientes b)) as [[i p]|];
    [|by repeat constructor].
  unfold recuperar_conta_cliente.
  destruct (contas_do_cliente p) as [|k ks]; [by repeat constructor|].
  destruct (contas b !! k) as [c|]; [|constructor].
  destruct (transacoes (historico c)) as [|o l].
  - simpl. by repeat constructor.
  - pose proof (linhas_do_extrato_saida (o :: l)) as Hm. cbv zeta.
    destruct (existsb excecao (linhas_do_extrato (o :: l)));
      rewrite ?Forall_app, ?Forall_cons, ?Forall_nil; split_and!; try done;
      apply Forall_app; split; [done|by repeat constructor].
Qed.

Lemma listar_contas_saida b :
  Forall (λ m, nunca_impressa m = false) (listar_contas b).
Proof.
  unfold listar_contas. induction (contas b) as [|c l IH]; [constructor|].
  rewrite bind_cons. apply Forall_app. split; [|done].
  unfold str_conta. destruct (variante c); by repeat constructor.
Qed.

Lemma passo_saida cmd b :
  Forall (λ c, variante c = Corrente 500 3) (contas b) →
  Forall (λ c, so_dicts (historico c)) (contas b) →
  Forall (λ m, nunca_impressa m = false) (passo cmd b).2.
Proof.
  intros Hv Hd.
  assert (Ht : ∀ x t agora,
            Forall (λ m, nunca_impressa m = false) (transacionar x t agora b).2).
  { intros x t agora. unfold transacionar.
    destruct (filtrar_cliente x (clientes b)) as [[i p]|];
      [|by repeat constructor].
    unfold recuperar_conta_cliente.
    destruct (contas_do_cliente p) as [|k ks]; [by repeat constructor|].
    destruct (contas b !! k) as [c|] eqn:Ec; [|constructor].
    simpl. apply registrar_saida.
    - eapply Forall_lookup_1 in Hv; [exact Hv|exact Ec].
    - eapply Forall_lookup_1 in Hd; [exact Hd|exact Ec]. }
  destruct cmd; simpl; try (by repeat constructor).
  - apply Ht.
  - apply Ht.
  - apply exibir_extrato_saida.
  - unfold criar_cliente.
    destruct (filtrar_cliente x (clientes b)); by repeat constructor.
  - unfold criar_conta.
    destruct (filtrar_cliente x (clientes b)) as [[i p]|]; by repeat constructor.
  - apply listar_contas_saida.
Qed.

End Saida_props.

(** X16.  The choice "x" ends the loop: what is typed after it has no effect
    on the two lists or on what is printed. *)
Theorem laco_para_em_x :
  ∀ (antes depois : list Comando) (b : Banco),
    laco (antes ++ Cmd_x :: depois) b = laco (antes ++ [Cmd_x]) b
    ∧ laco (antes ++ [Cmd_x]) b = laco antes b.
Proof.
  assert (H : ∀ antes depois b, laco (antes ++ Cmd_x :: depois) b = laco antes b).
  { induction antes as [|cmd antes IH]; intros depois b; [done|].
    destruct (Comando_x_ou_nao cmd) as [->|Hx]; [done|].
    rewrite <- app_comm_cons, !laco_passo by done.
    destruct (existsb excecao (passo cmd b).2); [done|]. by rewrite IH. }
  intros antes depois b. by rewrite !H.
Qed.

(** X18.  Whatever is typed, among all the lines [main] prints, those of the
    statement and of the listing of accounts included, there is never the
    line that the number of withdrawals was exceeded, that the balance is
    insufficient, or that a deposit was made: in the states [main] reaches
    the count of withdrawals is 0, every account is a checking account, and
    no deposit reaches [Conta.depositar]. *)
Theorem main_nunca_imprime :
  ∀ cmds : list Comando,
    Forall (λ m, nunca_impressa m = false) (main cmds).2.
Proof.
  intros cmds. unfold main.
  assert (H : ∀ b,
            Forall (λ c, variante c = Corrente 500 3) (contas b) →
            Forall (λ c, so_dicts (historico c)) (contas b) →
            Forall (λ m, nunca_impressa m = false) (laco cmds b).2).
  { induction cmds as [|cmd cmds IH]; intros b Hv Hd; [constructor|].
    destruct (Comando_x_ou_nao cmd) as [->|Hx]; [constructor|].
    rewrite laco_passo by done.
    destruct (existsb excecao (passo cmd b).2); [by apply passo_saida|].
    simpl. apply Forall_app. split.
    - by apply passo_saida.
    - apply IH.
      + eapply evolui_correntes; [apply passo_evolui|done].
      + eapply evolui_so_dicts; [apply passo_evolui|done]. }
  apply H; constructor.
Qed.

(** ** The menu on a client with and without accounts *)

Section Menu_props.

Implicit Types (b : Banco) (cmds : list Comando) (p : PessoaFisica)
  (c : Conta) (x agora : string).

Lemma filtrar_cliente_novo x (cs : list PessoaFisica) p :
  x ∉ cpf <$> cs → cpf p = x →
  filtrar_cliente x (cs ++ [p]) = Some (length cs, p).
Proof.
  intros Hx Hp. apply filtrar_cliente_None in Hx.
  unfold filtrar_cliente in *. rewrite list_find_app_r by done.
  simpl. by rewrite decide_True.
Qed.

End Menu_props.

(** X19.  A client that has just been registered has no account: a deposit or
    a withdrawal for its CPF changes nothing and prints that the client has no
    account. *)
Theorem cliente_novo_sem_conta :
  ∀ (b : Banco) (x n d e agora : string) (t : Transacao),
    x ∉ cpf <$> clientes b →
    let b' := (criar_cliente x n d e b).1 in
    conta_do_menu x b' = None
    ∧ transacionar x t agora b' = (b', [MsgClienteSemConta]).
Proof.
  intros b x n d e agora t Hx b'. subst b'.
  assert (E : filtrar_cliente x (clientes (criar_cliente x n d e b).1)
              = Some (length (clientes b), PessoaFisica_init n d x e)).
  { unfold criar_cliente. rewrite (proj2 (filtrar_cliente_None x _) Hx).
    by apply filtrar_cliente_novo. }
  unfold conta_do_menu, transacionar. rewrite E. done.
Qed.

Lemma cliente_novo_sem_conta_witness :
  let b := (main [Cmd_nu "111" "Ana" "01-01-1990" "Rua A"; Cmd_nc "111"]).1 in
  let b' := (criar_cliente "222" "Rui" "02-02-1980" "Rua B" b).1 in
  conta_do_menu "222" b' = None
  ∧ transacionar "222" (Saque 10) "t" b' = (b', [MsgClienteSemConta]).
Proof.
  apply (cliente_novo_sem_conta
           (main [Cmd_nu "111" "Ana" "01-01-1990" "Rua A"; Cmd_nc "111"]).1).
  vm_compute. intros H. apply list_elem_of_singleton in H. discriminate.
Defined.

(** X20.  The first account created for a registered client becomes the
    account the menu operates on for its CPF: it is the new account, at the
    end of the store, owned by that client, and it is listed by the client. *)
Theorem primeira_conta_criada :
  ∀ (b : Banco) (x : string) (nc : Z) (i : nat) (p : PessoaFisica),
    filtrar_cliente x (clientes b) = Some (i, p) →
    contas_do_cliente p = [] →
    let b' := (criar_conta nc x b).1 in
    conta_do_menu x b' = Some (length (contas b))
    ∧ contas b' !! length (contas b) = Some (ContaCorrente_nova_conta i nc)
    ∧ filtrar_cliente x (clientes b')
      = Some (i, mkPessoaFisica (endereco p) [length (contas b)] (nome p)
                   (data_nascimento p) (cpf p)).
Proof.
  intros b x nc i p E Hp b'. subst b'.
  pose proof (filtrar_cliente_Some _ _ _ _ E) as [Hi _].
  assert (E' : filtrar_cliente x (clientes (criar_conta nc x b).1)
               = Some (i, Cliente_adicionar_conta (length (contas b)) p)).
  { unfold criar_conta. rewrite E. simpl.
    rewrite (filtrar_cliente_insert x _ i p
               (Cliente_adicionar_conta (length (contas b)) p) Hi eq_refl).
    rewrite E. simpl. by rewrite decide_True. }
  split_and!.
  - unfold conta_do_menu. rewrite E'. simpl. by rewrite Hp.
  - rewrite criar_conta_contas, E. by apply list_lookup_middle.
  - rewrite E'. unfold Cliente_adicionar_conta. by rewrite Hp.
Qed.

Lemma primeira_conta_criada_witness :
  let b := (main [Cmd_nu "111" "Ana" "01-01-1990" "Rua A"; Cmd_nc "111";
                  Cmd_nu "222" "Rui" "02-02-1980" "Rua B"]).1 in
  let b' := (criar_conta 2 "222" b).1 in
  conta_do_menu "222" b' = Some 1%nat
  ∧ contas b' !! 1%nat = Some (ContaCorrente_nova_conta 1 2)
  ∧ filtrar_cliente "222" (clientes b')
    = Some (1%nat, mkPessoaFisica "Rua B" [1%nat] "Rui" "02-02-1980" "222").
Proof.
  exact (primeira_conta_criada
           (main [Cmd_nu "111" "Ana" "01-01-1990" "Rua A"; Cmd_nc "111";
                  Cmd_nu "222" "Rui" "02-02-1980" "Rua B"]).1
           "222" 2 1%nat (mkPessoaFisica "Rua B" [] "Rui" "02-02-1980" "222")
           eq_refl eq_refl).
Defined.
